(** * The chat endpoint of [app.py]: conversation store and handler

    A shallow embedding of the [/chat] route of [app.py].  The handler is
    Python code over three pieces of shared state: the global
    [conversational_pipeline] (set once by [load_pipeline]), the global
    dictionary [conversation_history], and the Conversation objects the
    dictionary refers to.  Conversation objects are mutable and the
    dictionary holds references to them, so the embedding keeps an explicit
    object heap: [conversation_history.get] hands out a location, and
    [add_user_message] / [add_ai_response] update the object at that
    location in place. *)

From Stdlib Require Import QArith.Qcanon.
From stdpp Require Import gmap strings list fin_maps.

Open Scope string_scope.
Open Scope list_scope.

(** ** Python values: the parsed JSON body *)

#[local] Set Warnings "-register-all".

(** What [json.loads] builds: [None], [bool], [int], [float] (kept as the
    rational it denotes), [str], [list] and [dict] with string keys. *)
Inductive value :=
| VNone
| VBool (b : bool)
| VInt (n : Z)
| VFloat (x : Qc)
| VStr (s : string)
| VList (l : list value)
| VDict (d : list (string * value)).

(** The exceptions the handler can meet.  [GatewayException] stands for
    whatever the model pipeline raises; it carries [str(e)]. *)
Inductive exn :=
| AttributeError (msg : string)
| TypeError (msg : string)
| KeyError (msg : string)
| IndexError (msg : string)
| BadRequest
| GatewayException (msg : string).

Definition str_exn (e : exn) : string :=
  match e with
  | AttributeError m | TypeError m | KeyError m | IndexError m
  | GatewayException m => m
  | BadRequest => "400 Bad Request: Failed to decode JSON object"
  end.

Definition type_name (v : value) : string :=
  match v with
  | VNone => "NoneType"
  | VBool _ => "bool"
  | VInt _ => "int"
  | VFloat _ => "float"
  | VStr _ => "str"
  | VList _ => "list"
  | VDict _ => "dict"
  end.

(** Python truth value, as tested by [if x] and [not x]. *)
Definition truthy (v : value) : bool :=
  match v with
  | VNone => false
  | VBool b => b
  | VInt n => negb (n =? 0)%Z
  | VFloat x => bool_decide (x ≠ 0%Qc)
  | VStr s => negb (String.eqb s "")
  | VList l => match l with [] => false | _ => true end
  | VDict d => match d with [] => false | _ => true end
  end.

(** A dict read from JSON, as the list of its items; a key occurs once. *)
Fixpoint dict_get (d : list (string * value)) (k : string) : option value :=
  match d with
  | [] => None
  | (k', v) :: d' => if String.eqb k' k then Some v else dict_get d' k
  end.

(** [x.get(key, dflt)]: only a dict has the attribute [get]. *)
Definition py_get (x : value) (key : string) (dflt : value) : exn + value :=
  match x with
  | VDict d => inr (default dflt (dict_get d key))
  | _ => inl (AttributeError
                ("'" +:+ type_name x +:+ "' object has no attribute 'get'"))
  end.

Fixpoint last_char (s : string) : string :=
  match s with
  | EmptyString => ""
  | String c EmptyString => String c EmptyString
  | String _ s' => last_char s'
  end.

(** [x[-1]] *)
Definition py_last (x : value) : exn + value :=
  match x with
  | VList l =>
      match last l with
      | Some v => inr v
      | None => inl (IndexError "list index out of range")
      end
  | VStr s =>
      if String.eqb s "" then inl (IndexError "string index out of range")
      else inr (VStr (last_char s))
  | VDict _ => inl (KeyError "-1")
  | _ => inl (TypeError ("'" +:+ type_name x +:+ "' object is not subscriptable"))
  end.

(** ** Conversations, the object heap and the store *)

Inductive role := user | assistant.

Record turn := Turn { turn_role : role; content : value }.

(** A Conversation object's contents: its turns, oldest first. *)
Abbreviation Conversation := (list turn).

(** A reference to a Conversation object. *)
Abbreviation loc := nat.

(** The process state: the global dictionary [conversation_history], from
    user identifier to a reference, and the Conversation objects. *)
Record state := State {
  conversation_history : gmap string loc;
  heap : list Conversation
}.

(** What [conversation_history[u]] currently holds, turn by turn. *)
Definition stored (st : state) (u : string) : option Conversation :=
  conversation_history st !! u ≫= λ l, heap st !! l.

(** Every reference in the dictionary is to an allocated object. *)
Definition wf (st : state) : Prop :=
  ∀ u l, conversation_history st !! u = Some l → l < length (heap st).

(** The state at process start: [conversation_history = {}]. *)
Definition initial : state := State ∅ [].

(** The model gateway.  [generate c] is the call [conversational_pipeline(history)]
    on a conversation with turns [c]: it raises, or returns an object whose
    [generated_responses] is the given list.  It reads the conversation and
    leaves it as it is. *)
Record Pipeline := { generate : Conversation → exn + list string }.

(** [load_pipeline]: one attempt at building the pipeline; on an exception
    the global stays [None]. *)
Definition load_pipeline (attempt : exn + Pipeline) : option Pipeline :=
  match attempt with
  | inr p => Some p
  | inl _ => None
  end.

(** ** Effects *)

(** The operations on shared state and on the gateway that a request
    performs, in program order: [EvCreate] and [EvGenerate] are calls to
    the gateway, [EvStoreGet] and [EvStoreSet] a read and a write of the
    dictionary, [EvAddUser] and [EvAddAi] updates of a Conversation
    object, [EvPrint] a line on standard output. *)
Inductive event :=
| EvCreate (l : loc)
| EvStoreGet (u : string)
| EvStoreSet (u : string) (l : loc)
| EvAddUser (l : loc)
| EvAddAi (l : loc)
| EvGenerate (l : loc)
| EvPrint (s : string).

(** A computation: runs on a state, returns a value or raises, leaves a
    state and the events it performed. *)
Definition M (A : Type) : Type := state → (exn + A) * state * list event.

Definition ret {A} (a : A) : M A := λ st, (inr a, st, []).

Definition raise {A} (e : exn) : M A := λ st, (inl e, st, []).

Definition bind {A B} (m : M A) (k : A → M B) : M B :=
  λ st,
    match m st with
    | (inl e, st1, ev1) => (inl e, st1, ev1)
    | (inr a, st1, ev1) =>
        match k a st1 with
        | (r, st2, ev2) => (r, st2, ev1 ++ ev2)
        end
    end.

(** [try: m except Exception as e: h e] *)
Definition try_except {A} (m : M A) (h : exn → M A) : M A :=
  λ st,
    match m st with
    | (inl e, st1, ev1) =>
        match h e st1 with
        | (r, st2, ev2) => (r, st2, ev1 ++ ev2)
        end
    | r => r
    end.

Definition lift {A} (r : exn + A) : M A :=
  match r with
  | inl e => raise e
  | inr a => ret a
  end.

Notation "x <- m ;; k" := (bind m (λ x, k))
  (at level 100, m at next level, right associativity, only parsing).
Notation "m ;;; k" := (bind m (λ _, k))
  (at level 100, right associativity, only parsing).

(** ** Operations on the store and on Conversation objects *)

(** A new object with no turns, at the next free location. *)
Definition alloc (st : state) : state :=
  State (conversation_history st) (heap st ++ [[]]).

(** Modelled from the spec: the Conversation class and the pipeline's
    [create_new_conversation] come from the model library, not from the
    repository.  A new conversation is a fresh object with no turns. *)
Definition create_new_conversation : M loc :=
  λ st, let l := length (heap st) in (inr l, alloc st, [EvCreate l]).

(** [conversation_history.get(user_id, dflt)]: a read; the dictionary is not
    changed, also when the key is absent. *)
Definition history_get (user_id : string) (dflt : loc) : M loc :=
  λ st,
    (inr (default dflt (conversation_history st !! user_id)), st,
     [EvStoreGet user_id]).

Definition append_turn (l : loc) (t : turn) (st : state) : state :=
  State (conversation_history st) (alter (λ c, c ++ [t]) l (heap st)).

(** Modelled from the spec: [add_user_message] of the Conversation class
    appends a user turn to the object, in place. *)
Definition add_user_message (history : loc) (text : value) : M unit :=
  λ st, (inr (), append_turn history (Turn user text) st, [EvAddUser history]).

(** Modelled from the spec: [add_ai_response] of the Conversation class
    appends an assistant turn to the object, in place. *)
Definition add_ai_response (history : loc) (text : string) : M unit :=
  λ st,
    (inr (), append_turn history (Turn assistant (VStr text)) st,
     [EvAddAi history]).

(** [conversational_pipeline(history)] *)
Definition call_pipeline (p : Pipeline) (history : loc) : M (list string) :=
  λ st, (generate p (heap st !!! history), st, [EvGenerate history]).

(** [response.generated_responses[-1]] *)
Definition last_response (generated_responses : list string) : exn + string :=
  match last generated_responses with
  | Some r => inr r
  | None => inl (IndexError "list index out of range")
  end.

(** [conversation_history[user_id] = history] *)
Definition history_set (user_id : string) (history : loc) : M unit :=
  λ st,
    (inr (),
     State (<[user_id := history]> (conversation_history st)) (heap st),
     [EvStoreSet user_id history]).

Definition print (s : string) : M unit := λ st, (inr (), st, [EvPrint s]).

(** ** The request and the response *)

Inductive http_method := POST | OPTIONS.

(** What the handler reads of a request: the method, the body as
    [get_json(force=True)] parses it ([None] when it is not JSON) and the
    [User-ID] header. *)
Record request := Request {
  method : http_method;
  json : option value;
  user_id_header : option string
}.

Record response := Response { body : value; status : nat }.

Definition jsonify (v : value) : response := Response v 200.

(** [request.headers.get('User-ID', 'default_user')] *)
Definition user_id_of (r : request) : string :=
  default "default_user" (user_id_header r).

Definition get_json (r : request) : M value :=
  match json r with
  | Some v => ret v
  | None => raise BadRequest
  end.

(** [data.get("messages", [])[-1].get("content", "") if data.get("messages")
    else ""] *)
Definition extract_user_message (data : value) : exn + value :=
  match py_get data "messages" VNone with
  | inl e => inl e
  | inr cond =>
      if truthy cond then
        match py_get data "messages" (VList []) with
        | inl e => inl e
        | inr messages =>
            match py_last messages with
            | inl e => inl e
            | inr m => py_get m "content" (VStr "")
            end
        end
      else inr (VStr "")
  end.

Section Handler.

(** [repr] of a value that is not a string.  The handler only interpolates
    it into the echo text. *)
Variable repr : value → string.

(** [f"{v}"] *)
Definition format (v : value) : string :=
  match v with
  | VStr s => s
  | _ => repr v
  end.

(** The body of the [try] block. *)
Definition chat_try (conversational_pipeline : option Pipeline)
    (user_id : string) (user_message : value) : M response :=
  match conversational_pipeline with
  | Some p =>
      d <- create_new_conversation ;;
      history <- history_get user_id d ;;
      add_user_message history user_message ;;;
      generated_responses <- call_pipeline p history ;;
      ai_response <- lift (last_response generated_responses) ;;
      add_ai_response history ai_response ;;;
      history_set user_id history ;;;
      ret (jsonify (VDict [("response", VStr ai_response)]))
  | None =>
      ret (jsonify (VDict [("response",
             VStr ("Echo: " +:+ format user_message
                   +:+ " (Conversational AI not loaded)"))]))
  end.

(** The [except Exception as e] clause. *)
Definition chat_except (e : exn) : M response :=
  print ("Error during chat processing: " +:+ str_exn e) ;;;
  ret (Response (VDict [("error", VStr (str_exn e))]) 500).

(** The route [/chat].  A result [inl e] is an exception that leaves the
    handler. *)
Definition chat (conversational_pipeline : option Pipeline)
    (req : request) : M response :=
  match method req with
  | OPTIONS => ret (Response (VDict []) 200)
  | POST =>
      data <- get_json req ;;
      let user_id := user_id_of req in
      user_message <- lift (extract_user_message data) ;;
      if negb (truthy user_message) then
        ret (Response (VDict [("error", VStr "Please provide a message")]) 400)
      else
        try_except (chat_try conversational_pipeline user_id user_message)
                   chat_except
  end.

End Handler.

(** The object the [try] block works on for [u]: the stored one, or else
    the one just created. *)
Definition target (st : state) (u : string) : loc :=
  default (length (heap st)) (conversation_history st !! u).

(** The state when the gateway is called: the new object allocated, the
    user turn appended to the object the request works on. *)
Definition at_generate (st : state) (u : string) (m : value) : state :=
  append_turn (target st u) (Turn user m) (alloc st).

(** The state after the assistant turn is appended and the dictionary
    entry written. *)
Definition at_return (st : state) (u : string) (m : value) (r : string)
    : state :=
  State (<[u := target st u]> (conversation_history st))
    (heap (append_turn (target st u) (Turn assistant (VStr r))
             (at_generate st u m))).

(** Lines 109 and 114 together: the reply, or the exception of either. *)
Definition generate_reply (p : Pipeline) (c : Conversation) : exn + string :=
  match generate p c with
  | inl e => inl e
  | inr generated_responses => last_response generated_responses
  end.

(** The operations of a call that ends in the [except] clause after the
    gateway call. *)
Definition failure_events (st : state) (u : string) (e : exn) : list event :=
  [EvCreate (length (heap st)); EvStoreGet u; EvAddUser (target st u);
   EvGenerate (target st u);
   EvPrint ("Error during chat processing: " +:+ str_exn e)].

(** The operations of a call that returns the reply. *)
Definition success_events (st : state) (u : string) : list event :=
  [EvCreate (length (heap st)); EvStoreGet u; EvAddUser (target st u);
   EvGenerate (target st u); EvAddAi (target st u);
   EvStoreSet u (target st u)].

(** The turns stored for [u]; none when [u] has no stored conversation. *)
Definition turns (st : state) (u : string) : list turn :=
  default [] (stored st u).

(** The two turns of one exchange: the message, then the reply. *)
Definition exchange (m : value) (r : string) : list turn :=
  [Turn user m; Turn assistant (VStr r)].

(** ** Requests one after the other *)

(** A call: the value of the global [conversational_pipeline] seen by the
    request (with the gateway's behaviour for that request) and the
    request. *)
Definition call : Type := option Pipeline * request.

(** Serve the calls in order; the responses (or escaping exceptions) and
    the final state. *)
Fixpoint serve (repr : value → string) (calls : list call) (st : state)
    : list (exn + response) * state :=
  match calls with
  | [] => ([], st)
  | (p, req) :: calls' =>
      match chat repr p req st with
      | (r, st1, _) =>
          match serve repr calls' st1 with
          | (rs, st2) => (r :: rs, st2)
          end
      end
  end.

(** ** The shape of a conversation *)

Definition role_eqb (a b : role) : bool :=
  match a, b with
  | user, user | assistant, assistant => true
  | _, _ => false
  end.

Definition other (r : role) : role :=
  match r with
  | user => assistant
  | assistant => user
  end.

Fixpoint alternates_from (r : role) (c : Conversation) : bool :=
  match c with
  | [] => true
  | t :: c' => role_eqb (turn_role t) r && alternates_from (other r) c'
  end.

(** Turns alternate, starting with a user turn. *)
Definition alternating (c : Conversation) : bool := alternates_from user c.

(** ** Two requests at once

    The [try] block of a request with a loaded pipeline, cut at its
    operations on shared state.  A thread is at one of these points, with
    its local variables. *)
Inductive thread :=
| AtCreate (user_id : string) (user_message : value)
| AtGet (user_id : string) (user_message : value) (d : loc)
| AtAddUser (user_id : string) (user_message : value) (history : loc)
| AtGenerate (user_id : string) (user_message : value) (history : loc)
| AtAddAi (user_id : string) (user_message : value) (history : loc)
    (ai_response : string)
| AtSet (user_id : string) (user_message : value) (history : loc)
    (ai_response : string)
| Done (user_id : string) (user_message : value) (r : response).

(** The next operation of a thread, as in [chat_try]. *)
Definition thread_op (p : Pipeline) (t : thread) : M thread :=
  match t with
  | AtCreate u m =>
      d <- create_new_conversation ;; ret (AtGet u m d)
  | AtGet u m d =>
      history <- history_get u d ;; ret (AtAddUser u m history)
  | AtAddUser u m history =>
      add_user_message history m ;;; ret (AtGenerate u m history)
  | AtGenerate u m history =>
      generated_responses <- call_pipeline p history ;;
      ai_response <- lift (last_response generated_responses) ;;
      ret (AtAddAi u m history ai_response)
  | AtAddAi u m history ai_response =>
      add_ai_response history ai_response ;;; ret (AtSet u m history ai_response)
  | AtSet u m history ai_response =>
      history_set u history ;;;
      ret (Done u m (jsonify (VDict [("response", VStr ai_response)])))
  | Done u m r => ret (Done u m r)
  end.

Definition thread_abort (t : thread) (r : response) : thread :=
  match t with
  | AtCreate u m | AtGet u m _ | AtAddUser u m _ | AtGenerate u m _
  | AtAddAi u m _ _ | AtSet u m _ _ | Done u m _ => Done u m r
  end.

(** One step of a thread; an exception takes it to the [except] clause. *)
Definition thread_step (p : Pipeline) (t : thread) (st : state)
    : thread * state :=
  match try_except (thread_op p t)
          (λ e, r <- chat_except e ;; ret (thread_abort t r)) st with
  | (inr t', st', _) => (t', st')
  | (inl _, st', _) => (t, st')
  end.

(** Two threads over the shared state. *)
Record config := Config { first : thread; second : thread; shared : state }.

(** A schedule names, step by step, the thread that runs: [true] the
    first, [false] the second. *)
Definition sched_step (p : Pipeline) (b : bool) (c : config) : config :=
  if b then
    let '(t, st) := thread_step p (first c) (shared c) in
    Config t (second c) st
  else
    let '(t, st) := thread_step p (second c) (shared c) in
    Config (first c) t st.

Fixpoint run (p : Pipeline) (sched : list bool) (c : config) : config :=
  match sched with
  | [] => c
  | b :: sched' => run p sched' (sched_step p b c)
  end.

(** The response of a finished thread. *)
Definition finished (t : thread) : option response :=
  match t with
  | Done _ _ r => Some r
  | _ => None
  end.

(** The schedule that runs the first request to its end. *)
Definition first_to_the_end : list bool := replicate 6 true.

(** The ways of interleaving two sequences, each keeping its order. *)
Inductive interleave {A : Type} : list A → list A → list A → Prop :=
| interleave_nil : interleave [] [] []
| interleave_first x xs ys zs :
    interleave xs ys zs → interleave (x :: xs) ys (x :: zs)
| interleave_second y xs ys zs :
    interleave xs ys zs → interleave xs (y :: ys) (y :: zs).

(** The reply text of a response, if it is a success response. *)
Definition reply_text (r : response) : option string :=
  match body r with
  | VDict [(k, VStr a)] => if String.eqb k "response" then Some a else None
  | _ => None
  end.

(** The turns a thread has appended so far. *)
Definition written (t : thread) : list turn :=
  match t with
  | AtCreate _ _ | AtGet _ _ _ | AtAddUser _ _ _ => []
  | AtGenerate _ m _ | AtAddAi _ m _ _ => [Turn user m]
  | AtSet _ m _ a => exchange m a
  | Done _ m r =>
      match reply_text r with
      | Some a => exchange m a
      | None => [Turn user m]
      end
  end.

(** A thread of a request of user [u] with message [m], started when [u]'s
    dictionary entry referred to the object [l]: the new object it created
    is another one, and the object it works on is [l]. *)
Definition thread_ok (u : string) (m : value) (l : loc) (t : thread) : Prop :=
  match t with
  | AtCreate u' m' => u' = u ∧ m' = m
  | AtGet u' m' d => u' = u ∧ m' = m ∧ l < d
  | AtAddUser u' m' h | AtGenerate u' m' h | AtAddAi u' m' h _
  | AtSet u' m' h _ => u' = u ∧ m' = m ∧ h = l
  | Done u' m' r =>
      u' = u ∧ m' = m ∧
      ((∃ a, r = Response (VDict [("response", VStr a)]) 200) ∨ status r = 500)
  end.

(** ** Vocabulary of the statements *)

(** The user message of a request, as lines 78 and 89 compute it. *)
Definition message_of (req : request) : exn + value :=
  match json req with
  | Some data => extract_user_message data
  | None => inl BadRequest
  end.

(** The body is an object whose [messages] is a list that ends with an
    object; [c] is that object's [content] field, if it has one. *)
Definition ends_with_content (data : value) (c : option value) : Prop :=
  ∃ d l o,
    data = VDict d ∧ dict_get d "messages" = Some (VList l) ∧
    last l = Some (VDict o) ∧ dict_get o "content" = c.

(** The body carries no message: no [messages] field, an empty list, or a
    last element whose [content] is missing or the empty string. *)
Definition empty_or_absent (data : value) : Prop :=
  (∃ d, data = VDict d ∧
        (dict_get d "messages" = None ∨ dict_get d "messages" = Some (VList [])))
  ∨ ends_with_content data None
  ∨ ends_with_content data (Some (VStr "")).

(** The request [{"messages": [{"content": ""}]}] under the same header. *)
Definition with_empty_content (req : request) : request :=
  Request POST
    (Some (VDict [("messages", VList [VDict [("content", VStr "")]])]))
    (user_id_header req).

(** The turns of a sequence of exchanges, in order. *)
Definition exchanges (ms : list value) (rs : list string) : list turn :=
  concat (zip_with exchange ms rs).

(** The call's request carries the message [m]. *)
Definition asks (c : call) (m : value) : Prop := message_of c.2 = inr m.

(** The call was answered with status 200 and the reply [r]. *)
Definition answered (x : exn + response) (r : string) : Prop :=
  x = inr (Response (VDict [("response", VStr r)]) 200).

(** A call with a loaded pipeline, for user [u], with a message. *)
Definition call_for (u : string) (c : call) : Prop :=
  is_Some c.1 ∧ method c.2 = POST ∧ user_id_of c.2 = u ∧
  ∃ m, message_of c.2 = inr m ∧ truthy m = true.

(** The call returned a response with status 200. *)
Definition succeeded (r : exn + response) : Prop :=
  ∃ resp, r = inr resp ∧ status resp = 200.

(** What holds of two threads of requests of [u], with messages [m1] and
    [m2], started when [u]'s entry referred to the object [l] with turns
    [old]: the entry still refers to [l], and [l] holds [old], then the
    turns the two threads have appended, interleaved. *)
Definition sharing (u : string) (m1 m2 : value) (l : loc) (old : list turn)
    (c : config) : Prop :=
  conversation_history (shared c) !! u = Some l ∧
  thread_ok u m1 l (first c) ∧ thread_ok u m2 l (second c) ∧
  ∃ ext, heap (shared c) !! l = Some (old ++ ext) ∧
         interleave (written (first c)) (written (second c)) ext.

(** ** Sample data *)

Definition sample_repr (v : value) : string := "<" +:+ type_name v +:+ ">".

(** A gateway that answers every conversation. *)
Definition answering : Pipeline := {| generate := λ _, inr ["Hi there"] |}.

(** A gateway that raises on every conversation. *)
Definition failing : Pipeline :=
  {| generate := λ _, inl (GatewayException "CUDA out of memory") |}.

(** [{"messages": [{"role": "user", "content": text}]}] with the header
    [User-ID: who]. *)
Definition says (who text : string) : request :=
  Request POST
    (Some (VDict [("messages",
       VList [VDict [("role", VStr "user"); ("content", VStr text)]])]))
    (Some who).

(** The same last [content], after an element the handler does not read,
    and with other fields. *)
Definition says_after_more (who text : string) : request :=
  Request POST
    (Some (VDict [("model", VStr "any");
                  ("messages",
                   VList [VDict [("role", VStr "assistant");
                                 ("content", VStr "made up")];
                          VDict [("content", VStr text); ("id", VInt 7)]])]))
    (Some who).

(** [{"messages": []}] *)
Definition no_messages (who : string) : request :=
  Request POST (Some (VDict [("messages", VList [])])) (Some who).

(** [{"messages": [{"role": "user"}]}] *)
Definition no_content (who : string) : request :=
  Request POST
    (Some (VDict [("messages", VList [VDict [("role", VStr "user")]])]))
    (Some who).

(** [{"messages": ["hi"]}]: the last element is not an object. *)
Definition bare_string_request : request :=
  Request POST (Some (VDict [("messages", VList [VStr "hi"])])) None.

(** A state in which alice has a stored conversation of one exchange. *)
Definition alice_state : state :=
  State {["alice" := 0]} [exchange (VStr "hello") "Hi there"].

(** Both requests read the dictionary before either writes it. *)
Definition overlapping : list bool :=
  [true; true; false; false; true; true; true; true;
   false; false; false; false].

(** Two requests of alice at once. *)
Definition two_requests (st : state) : config :=
  Config (AtCreate "alice" (VStr "one")) (AtCreate "alice" (VStr "two")) st.

(** A successful call, a call on which the gateway raises, a successful
    call. *)
Definition three_calls : list call :=
  [(Some answering, says "alice" "hello");
   (Some failing, says "alice" "again");
   (Some answering, says "alice" "third")].

(** ** Further vocabulary *)

(** The bodies on which line 89 raises nothing: an object whose [messages]
    is absent, or falsy, or a list that ends with an object. *)
Definition well_shaped (data : value) : Prop :=
  ∃ d, data = VDict d ∧
       match dict_get d "messages" with
       | None => True
       | Some v =>
           truthy v = false ∨ ∃ l o, v = VList l ∧ last l = Some (VDict o)
       end.

(** The JSON values that [not user_message] takes for no message. *)
Definition falsy_values : list value :=
  [VNone; VBool false; VInt 0; VFloat 0; VStr ""; VList []; VDict []].

(** No two users' entries refer to one Conversation object. *)
Definition separate (st : state) : Prop :=
  ∀ u1 u2 l,
    conversation_history st !! u1 = Some l →
    conversation_history st !! u2 = Some l → u1 = u2.

(** The request with the header [User-ID: default_user] written out. *)
Definition with_default_user (req : request) : request :=
  Request (method req) (json req) (Some "default_user").

(** The calls of user [u] among [calls]. *)
Definition calls_of (u : string) (calls : list call) : list call :=
  filter (λ c : call, user_id_of c.2 = u) calls.

(** The responses, among [rs], to the calls of user [u] among [calls]. *)
Definition responses_of (u : string) (calls : list call)
    (rs : list (exn + response)) : list (exn + response) :=
  (filter (λ cr : call * (exn + response), user_id_of cr.1.2 = u)
     (zip calls rs)).*2.

(** Every assistant turn comes directly after a user turn;
    [after_user] tells whether the turn before the first one is a user
    turn. *)
Fixpoint replies_follow (after_user : bool) (c : Conversation) : bool :=
  match c with
  | [] => true
  | t :: c' =>
      match turn_role t with
      | user => replies_follow true c'
      | assistant => after_user && replies_follow false c'
      end
  end.

(** Every user turn carries a message that passed the test of line 92. *)
Definition messages_given (c : Conversation) : Prop :=
  Forall (λ t, turn_role t = user → truthy (content t) = true) c.

(** The shape every Conversation object has: no assistant turn without
    the user turn it answers, no user turn without a message. *)
Definition paired (c : Conversation) : Prop :=
  replies_follow false c = true ∧ messages_given c.

(** A gateway that returns with no generated response. *)
Definition silent : Pipeline := {| generate := λ _, inr [] |}.

(** A gateway that returns several generated responses. *)
Definition chatty : Pipeline :=
  {| generate := λ _, inr ["first"; "second"; "last"] |}.

(** [{"messages": [{"content": 0}]}] *)
Definition zero_content (who : string) : request :=
  Request POST
    (Some (VDict [("messages", VList [VDict [("content", VInt 0)]])]))
    (Some who).

(** A message without the [User-ID] header. *)
Definition anonymous (text : string) : request :=
  Request POST
    (Some (VDict [("messages", VList [VDict [("content", VStr text)]])]))
    None.

(** Calls of alice and bob, mixed. *)
Definition mixed_calls : list call :=
  [(Some answering, says "alice" "hello");
   (Some answering, says "bob" "hi");
   (Some failing, says "bob" "again");
   (Some answering, says "alice" "more")].

(** * Properties *)

(** ** The heap under allocation and in-place update *)

Lemma stored_Some st u c :
  stored st u = Some c ↔
  ∃ l, conversation_history st !! u = Some l ∧ heap st !! l = Some c.
Proof.
  unfold stored. destruct (conversation_history st !! u) as [l|]; simpl.
  - split; [eauto | intros (l' & [= <-] & ?); done].
  - split; [done | intros (? & ? & ?); done].
Qed.

Lemma wf_stored st u l :
  wf st → conversation_history st !! u = Some l →
  ∃ c, heap st !! l = Some c ∧ stored st u = Some c.
Proof.
  intros Hwf Hu. destruct (lookup_lt_is_Some_2 (heap st) l) as [c Hc].
  { eapply Hwf, Hu. }
  exists c. split; [done |]. unfold stored. by rewrite Hu.
Qed.

Lemma wf_initial : wf initial.
Proof. intros u l. unfold initial; simpl. by rewrite lookup_empty. Qed.

Lemma target_lt st u : wf st → target st u < length (heap st ++ [[]]).
Proof.
  intros Hwf. unfold target. rewrite length_app; simpl.
  destruct (conversation_history st !! u) as [l|] eqn:Hu; simpl; [| lia].
  specialize (Hwf u l Hu). lia.
Qed.

(** The object a request works on holds the stored turns, then the new
    user turn. *)
Lemma lookup_target_append st u t :
  wf st →
  alter (λ c, c ++ [t]) (target st u) (heap st ++ [[]]) !! target st u
  = Some (default [] (stored st u) ++ [t]).
Proof.
  intros Hwf. rewrite list_lookup_alter_eq. unfold target.
  destruct (conversation_history st !! u) as [l|] eqn:Hu; simpl.
  - destruct (wf_stored st u l Hwf Hu) as (c & Hc & Hs).
    rewrite Hs; simpl. rewrite lookup_app_l by (eapply lookup_lt_Some, Hc).
    by rewrite Hc.
  - unfold stored. rewrite Hu; simpl.
    by rewrite list_lookup_middle.
Qed.

(** Objects other than the one updated keep their turns. *)
Lemma lookup_other_append (hp : list Conversation) h l t :
  l ≠ h → l < length hp →
  alter (λ c, c ++ [t]) h (hp ++ [[]]) !! l = hp !! l.
Proof.
  intros Hne Hl. rewrite list_lookup_alter_ne by done.
  by rewrite lookup_app_l.
Qed.

Lemma append_turn_length l t st :
  length (heap (append_turn l t st)) = length (heap st).
Proof. unfold append_turn; simpl. apply length_alter. Qed.

Lemma wf_alloc st : wf st → wf (alloc st).
Proof.
  intros Hwf u l Hu. unfold alloc in *; simpl in *.
  rewrite length_app; simpl. specialize (Hwf u l Hu). lia.
Qed.

Lemma wf_append_turn l t st : wf st → wf (append_turn l t st).
Proof.
  intros Hwf u l' Hu. rewrite append_turn_length. by eapply Hwf.
Qed.

(** ** The handler, path by path *)

Section Chat.

Context (repr : value → string).

(** Without a pipeline the [try] block echoes. *)
Lemma chat_try_echo u m st :
  try_except (chat_try repr None u m) chat_except st
  = (inr (Response (VDict [("response",
            VStr ("Echo: " +:+ format repr m
                  +:+ " (Conversational AI not loaded)"))]) 200),
     st, []).
Proof. reflexivity. Qed.

(** With a pipeline, the [try] block and its [except] clause. *)
Lemma chat_try_pipeline p u m st :
  try_except (chat_try repr (Some p) u m) chat_except st
  = match generate_reply p (heap (at_generate st u m) !!! target st u) with
    | inl e =>
        (inr (Response (VDict [("error", VStr (str_exn e))]) 500),
         at_generate st u m, failure_events st u e)
    | inr r =>
        (inr (Response (VDict [("response", VStr r)]) 200),
         at_return st u m r, success_events st u)
    end.
Proof.
  unfold try_except, chat_try, bind, create_new_conversation, history_get,
    add_user_message, call_pipeline, add_ai_response, history_set,
    generate_reply; simpl.
  fold (target st u). fold (at_generate st u m).
  destruct (generate p _) as [e | gens]; simpl; [done |].
  destruct (last_response gens) as [e | r]; simpl; done.
Qed.

End Chat.

(** ** What is stored after each path *)

Lemma wf_at_generate st u m : wf st → wf (at_generate st u m).
Proof. intros Hwf. by apply wf_append_turn, wf_alloc. Qed.

Lemma wf_at_return st u m r : wf st → wf (at_return st u m r).
Proof.
  intros Hwf u' l. unfold at_return; simpl.
  rewrite !length_alter. rewrite lookup_insert.
  case_decide as Hu.
  - intros [= <-]. by apply target_lt.
  - intros Hl. rewrite length_app; simpl. specialize (Hwf u' l Hl). lia.
Qed.

Lemma heap_at_generate st u m :
  wf st →
  heap (at_generate st u m) !!! target st u
  = default [] (stored st u) ++ [Turn user m].
Proof.
  intros Hwf. apply list_lookup_total_correct.
  by apply lookup_target_append.
Qed.

(** A failing call for a user with a stored conversation: the user turn
    stays in the stored object. *)
Lemma stored_at_generate_self st u m c :
  wf st → stored st u = Some c →
  stored (at_generate st u m) u = Some (c ++ [Turn user m]).
Proof.
  intros Hwf Hc. pose proof (lookup_target_append st u (Turn user m) Hwf) as H.
  rewrite Hc in H; simpl in H.
  apply stored_Some in Hc as (l & Hl & _).
  apply stored_Some. exists l. split; [done |].
  unfold target in H. rewrite Hl in H; simpl in H.
  unfold at_generate, target. rewrite Hl; simpl. done.
Qed.

(** A failing call for a user without an entry changes no stored
    conversation: the user turn is in an object nothing refers to. *)
Lemma stored_at_generate_fresh st u m u' :
  wf st → conversation_history st !! u = None →
  stored (at_generate st u m) u' = stored st u'.
Proof.
  intros Hwf Hu. unfold stored, at_generate, target; simpl. rewrite Hu; simpl.
  destruct (conversation_history st !! u') as [l|] eqn:Hl; simpl; [| done].
  specialize (Hwf u' l Hl). apply lookup_other_append; lia.
Qed.

(** A successful call: the stored conversation is the old one, then the
    user turn, then the assistant turn. *)
Lemma stored_at_return_self st u m r :
  wf st →
  stored (at_return st u m r) u
  = Some (default [] (stored st u) ++ [Turn user m; Turn assistant (VStr r)]).
Proof.
  intros Hwf. unfold stored, at_return; simpl. rewrite lookup_insert_eq; simpl.
  rewrite list_lookup_alter_eq, lookup_target_append by done; simpl.
  by rewrite <- app_assoc.
Qed.

(** ** Reading the message *)

Lemma extract_ends_with data c :
  ends_with_content data c →
  extract_user_message data = inr (default (VStr "") c).
Proof.
  intros (d & l & o & -> & Hd & Hl & Hc).
  unfold extract_user_message; simpl. rewrite Hd; simpl.
  destruct l as [| x l]; [done |]. simpl in *. rewrite Hl; simpl.
  by rewrite Hc.
Qed.

Lemma extract_empty_or_absent data :
  empty_or_absent data → ∃ m, extract_user_message data = inr m ∧ truthy m = false.
Proof.
  intros [(d & -> & [Hd | Hd]) | [H | H]].
  - exists (VStr ""). unfold extract_user_message; simpl. by rewrite Hd.
  - exists (VStr ""). unfold extract_user_message; simpl. by rewrite Hd.
  - exists (VStr ""). by rewrite (extract_ends_with _ _ H).
  - exists (VStr ""). by rewrite (extract_ends_with _ _ H).
Qed.

Lemma truthy_VStr m : m ≠ "" → truthy (VStr m) = true.
Proof.
  intros Hm. simpl. apply negb_true_iff. by apply String.eqb_neq.
Qed.

Section Claims.

Context (repr : value → string).

(** The handler reads the request through its method, its message and
    its user identifier only. *)
Lemma chat_message_of p req st :
  chat repr p req st
  = match method req with
    | OPTIONS => (inr (Response (VDict []) 200), st, [])
    | POST =>
        match message_of req with
        | inl e => (inl e, st, [])
        | inr m =>
            if truthy m then
              try_except (chat_try repr p (user_id_of req) m) chat_except st
            else
              (inr (Response
                      (VDict [("error", VStr "Please provide a message")])
                      400), st, [])
        end
    end.
Proof.
  unfold chat, message_of, bind, get_json.
  destruct (method req); [| done].
  destruct (json req) as [data |]; simpl; [| done].
  destruct (extract_user_message data) as [e | m]; simpl; [done |].
  destruct (truthy m); simpl; [| done].
  by destruct (try_except _ _ st) as [[r st2] ev2].
Qed.

(** C2: when the pipeline failed to load, a POST /chat request with a
    non-empty message [m] is answered with status 200 and the body
    [{"response": "Echo: <m> (Conversational AI not loaded)"}]; the state
    is the one before the call and no operation on the store (or on the
    gateway) was performed. *)
Theorem C2_degraded_mode_echo (load_error : exn) req st m :
  method req = POST → message_of req = inr (VStr m) → m ≠ "" →
  chat repr (load_pipeline (inl load_error)) req st
  = (inr (Response
            (VDict [("response",
               VStr ("Echo: " +:+ m +:+ " (Conversational AI not loaded)"))])
            200),
     st, []).
Proof.
  intros Hm Hmsg Hne. rewrite chat_message_of, Hm, Hmsg.
  by rewrite truthy_VStr.
Qed.

(** C3: a POST /chat request whose message is empty or absent is answered
    with status 400 and [{"error": "Please provide a message"}]; the
    gateway is not invoked (no event at all) and the state, hence every
    stored conversation, is the one before the call. *)
Theorem C3_empty_message_rejected p req st data :
  method req = POST → json req = Some data → empty_or_absent data →
  chat repr p req st
  = (inr (Response (VDict [("error", VStr "Please provide a message")]) 400),
     st, []).
Proof.
  intros Hm Hj (m & He & Ht)%extract_empty_or_absent.
  rewrite chat_message_of, Hm. unfold message_of. rewrite Hj, He.
  by rewrite Ht.
Qed.

(** C5: two POST /chat requests with the same User-ID header whose
    [messages] lists end with objects that agree on [content] get the
    same response and leave the same state, from the same state and
    with the same gateway; the earlier elements and the other fields are
    not read. *)
Theorem C5_only_last_content_used p r1 r2 st d1 d2 c :
  method r1 = POST → method r2 = POST →
  user_id_header r1 = user_id_header r2 →
  json r1 = Some d1 → json r2 = Some d2 →
  ends_with_content d1 c → ends_with_content d2 c →
  chat repr p r1 st = chat repr p r2 st.
Proof.
  intros Hm1 Hm2 Hu Hj1 Hj2 H1 H2.
  rewrite !chat_message_of, Hm1, Hm2. unfold message_of, user_id_of.
  rewrite Hj1, Hj2, Hu.
  by rewrite (extract_ends_with _ _ H1), (extract_ends_with _ _ H2).
Qed.

(** C9: a POST /chat request whose [messages] list ends with an object
    that has no [content] key is answered as a request with an empty
    message: status 400, [{"error": "Please provide a message"}], the
    state as before the call and no operation on the store or the
    gateway. *)
Theorem C9_missing_content_as_empty p req st data :
  method req = POST → json req = Some data → ends_with_content data None →
  chat repr p req st
  = (inr (Response (VDict [("error", VStr "Please provide a message")]) 400),
     st, [])
  ∧ chat repr p req st = chat repr p (with_empty_content req) st.
Proof.
  intros Hm Hj H. rewrite !chat_message_of, Hm. unfold message_of.
  rewrite Hj, (extract_ends_with _ _ H). done.
Qed.

(** A call that raises in the gateway, or finds no generated response:
    status 500, and the state is the one at the gateway call. *)
Lemma chat_failure p req st m e :
  wf st → method req = POST → message_of req = inr m → truthy m = true →
  generate_reply p (default [] (stored st (user_id_of req)) ++ [Turn user m])
  = inl e →
  chat repr (Some p) req st
  = (inr (Response (VDict [("error", VStr (str_exn e))]) 500),
     at_generate st (user_id_of req) m,
     failure_events st (user_id_of req) e).
Proof.
  intros Hwf Hm Hmsg Ht He.
  rewrite chat_message_of, Hm, Hmsg, Ht, chat_try_pipeline.
  by rewrite heap_at_generate, He.
Qed.

(** A call that ends with status 200 under a loaded pipeline with a
    message [m]: the gateway returned a reply [r], which is sent back,
    and the state is the one after the dictionary write. *)
Lemma chat_success p req st m resp st' ev :
  wf st → method req = POST → message_of req = inr m → truthy m = true →
  chat repr (Some p) req st = (inr resp, st', ev) → status resp = 200 →
  ∃ r, generate_reply p
         (default [] (stored st (user_id_of req)) ++ [Turn user m]) = inr r
       ∧ resp = Response (VDict [("response", VStr r)]) 200
       ∧ st' = at_return st (user_id_of req) m r.
Proof.
  intros Hwf Hm Hmsg Ht Hc Hs.
  rewrite chat_message_of, Hm, Hmsg, Ht, chat_try_pipeline in Hc.
  rewrite heap_at_generate in Hc by done.
  destruct (generate_reply p _) as [e | r]; simplify_eq.
  by exists r.
Qed.

(** The handler keeps the dictionary's references valid. *)
Lemma chat_wf p req st : wf st → wf (chat repr p req st).1.2.
Proof.
  intros Hwf. rewrite chat_message_of.
  destruct (method req); [| done].
  destruct (message_of req) as [e | m]; [done |].
  destruct (truthy m); [| done].
  destruct p as [p |]; [| done]. rewrite chat_try_pipeline.
  destruct (generate_reply p _) as [e | r]; simpl.
  - by apply wf_at_generate.
  - by apply wf_at_return.
Qed.

(** C10: for a user identifier with no entry in the dictionary and a
    non-empty message, when the gateway raises the handler answers 500
    and the dictionary is the one before the call (no key is created for
    the user), and no user's stored conversation has changed. *)
Theorem C10_failure_creates_no_entry p req st m e :
  wf st → method req = POST → message_of req = inr m → truthy m = true →
  conversation_history st !! user_id_of req = None →
  generate p [Turn user m] = inl e →
  ∃ st' ev,
    chat repr (Some p) req st
    = (inr (Response (VDict [("error", VStr (str_exn e))]) 500), st', ev)
    ∧ conversation_history st' = conversation_history st
    ∧ conversation_history st' !! user_id_of req = None
    ∧ ∀ u', stored st' u' = stored st u'.
Proof.
  intros Hwf Hm Hmsg Ht Hu He.
  exists (at_generate st (user_id_of req) m),
    (failure_events st (user_id_of req) e).
  split_and!; [| done | done |].
  - apply chat_failure; try done.
    unfold stored, generate_reply. rewrite Hu; simpl. by rewrite He.
  - intros u'. by apply stored_at_generate_fresh.
Qed.

Lemma turns_at_return st u m r :
  wf st → turns (at_return st u m r) u = turns st u ++ exchange m r.
Proof. intros Hwf. unfold turns. by rewrite stored_at_return_self. Qed.

(** C4: successful POST /chat calls for one user identifier, served one
    after the other from a state where the user has no stored
    conversation or some stored conversation: the stored conversation
    afterwards is the one before, followed by each call's user turn and
    assistant turn, in the order of the calls; two turns per call.  For
    one call and no stored conversation that is one user turn with the
    message, then one assistant turn. *)
Theorem C4_successful_calls_append u calls st :
  wf st → Forall (call_for u) calls →
  Forall succeeded (serve repr calls st).1 →
  ∃ ms rs,
    Forall2 asks calls ms
    ∧ Forall2 answered (serve repr calls st).1 rs
    ∧ turns (serve repr calls st).2 u = turns st u ++ exchanges ms rs
    ∧ length (exchanges ms rs) = 2 * length calls
    ∧ (calls ≠ [] → is_Some (stored (serve repr calls st).2 u)).
Proof.
  intros Hwf Hcalls. revert st Hwf.
  induction Hcalls as [| [p req] calls Hc Hcalls IH]; intros st Hwf Hok.
  { exists [], []. simpl. split_and!; try done; try constructor.
    unfold exchanges; simpl. by rewrite app_nil_r. }
  destruct Hc as ([p' Hp] & Hm & Hu & m & Hmsg & Ht). simpl in *. subst p.
  destruct (chat repr (Some p') req st) as [[x st1] ev] eqn:Hchat.
  pose proof (chat_wf (Some p') req st Hwf) as Hwf1.
  rewrite Hchat in Hwf1; simpl in Hwf1.
  destruct (serve repr calls st1) as [xs st2] eqn:Hserve. simpl in *.
  apply Forall_cons in Hok as [(resp & -> & Hs) Hok].
  destruct (chat_success _ _ _ _ _ _ _ Hwf Hm Hmsg Ht Hchat Hs)
    as (r & _ & -> & Hst1).
  specialize (IH st1 Hwf1). rewrite Hserve in IH; simpl in IH.
  destruct (IH Hok) as (ms & rs & Hms & Hrs & Hturns & Hlen & Hsome).
  exists (m :: ms), (r :: rs). subst st1 u. split_and!.
  - by constructor.
  - by constructor.
  - rewrite Hturns, turns_at_return by done.
    unfold exchanges; simpl. by rewrite <- app_assoc.
  - unfold exchanges in *; simpl. rewrite Hlen. lia.
  - intros _. destruct calls as [| c calls'].
    + simpl in Hserve. injection Hserve as <- <-.
      rewrite stored_at_return_self by done. by eexists.
    + by apply Hsome.
Qed.

End Claims.

(** ** Two requests at once *)

Lemma interleave_nil_r {A} (xs : list A) : interleave xs [] xs.
Proof. induction xs; by constructor. Qed.

Lemma interleave_nil_l {A} (ys : list A) : interleave [] ys ys.
Proof. induction ys; by constructor. Qed.

Lemma interleave_app_first {A} (xs ys zs d : list A) :
  interleave xs ys zs → interleave (xs ++ d) ys (zs ++ d).
Proof.
  induction 1; simpl; try by constructor.
  apply interleave_nil_r.
Qed.

Lemma interleave_app_second {A} (xs ys zs d : list A) :
  interleave xs ys zs → interleave xs (ys ++ d) (zs ++ d).
Proof.
  induction 1; simpl; try by constructor.
  apply interleave_nil_l.
Qed.

Lemma interleave_length {A} (xs ys zs : list A) :
  interleave xs ys zs → length zs = length xs + length ys.
Proof. induction 1; simpl; lia. Qed.

(** One step of a thread that works on the object [l] of user [u]: the
    entry of [u] stays, and the object gets the turns the thread appends
    in this step, at its end. *)
Lemma thread_step_sharing p u m l t st c :
  thread_ok u m l t →
  conversation_history st !! u = Some l → heap st !! l = Some c →
  thread_ok u m l (thread_step p t st).1
  ∧ conversation_history (thread_step p t st).2 !! u = Some l
  ∧ ∃ d, written (thread_step p t st).1 = written t ++ d
         ∧ heap (thread_step p t st).2 !! l = Some (c ++ d).
Proof.
  intros Hok Hu Hc. pose proof (lookup_lt_Some _ _ _ Hc) as Hlt.
  destruct t as [u' m' | u' m' d | u' m' h | u' m' h | u' m' h a | u' m' h a
                 | u' m' r]; simpl in Hok; destruct_and?; subst.
  - refine (conj _ (conj _ _)); [done | done |]. exists []. split; [done |].
    unfold thread_step; simpl. rewrite app_nil_r. by apply lookup_app_l_Some.
  - unfold thread_step; simpl. rewrite Hu; simpl.
    refine (conj _ (conj _ _)); [done | done |]. exists []. by rewrite app_nil_r.
  - unfold thread_step; simpl.
    refine (conj _ (conj _ _)); [done | done |]. exists [Turn user m]. split; [done |].
    by rewrite list_lookup_alter_eq, Hc.
  - unfold thread_step, try_except, thread_op, bind, call_pipeline; simpl.
    destruct (generate p _) as [e | gens]; simpl.
    { refine (conj _ (conj _ _)); [repeat split; by right | done |]. exists []. by rewrite app_nil_r. }
    destruct (last_response gens) as [e | a]; simpl.
    { refine (conj _ (conj _ _)); [repeat split; by right | done |]. exists []. by rewrite app_nil_r. }
    refine (conj _ (conj _ _)); [done | done |]. exists []. by rewrite app_nil_r.
  - unfold thread_step; simpl.
    refine (conj _ (conj _ _)); [done | done |]. exists [Turn assistant (VStr a)].
    split; [done |]. by rewrite list_lookup_alter_eq, Hc.
  - unfold thread_step; simpl. rewrite lookup_insert_eq.
    refine (conj _ (conj _ _)); [repeat split; by left; eexists | done |]. exists [].
    by rewrite !app_nil_r.
  - unfold thread_step; simpl.
    refine (conj _ (conj _ _)); [done | done |]. exists []. by rewrite !app_nil_r.
Qed.

Lemma sched_step_sharing p u m1 m2 l old b c :
  sharing u m1 m2 l old c → sharing u m1 m2 l old (sched_step p b c).
Proof.
  intros (Hu & Hok1 & Hok2 & ext & Hext & Hint).
  destruct b; unfold sched_step, sharing.
  - destruct (thread_step_sharing p u m1 l (first c) (shared c) _ Hok1 Hu Hext)
      as (Hok' & Hu' & d & Hw & Hh).
    destruct (thread_step p (first c) (shared c)) as [t st']; simpl in *.
    split_and!; try done. exists (ext ++ d). rewrite Hw, app_assoc.
    split; [done |]. by apply interleave_app_first.
  - destruct (thread_step_sharing p u m2 l (second c) (shared c) _ Hok2 Hu Hext)
      as (Hok' & Hu' & d & Hw & Hh).
    destruct (thread_step p (second c) (shared c)) as [t st']; simpl in *.
    split_and!; try done. exists (ext ++ d). rewrite Hw, app_assoc.
    split; [done |]. by apply interleave_app_second.
Qed.

Lemma run_sharing p u m1 m2 l old sched c :
  sharing u m1 m2 l old c → sharing u m1 m2 l old (run p sched c).
Proof.
  revert c. induction sched as [| b sched IH]; intros c Hc; simpl; [done |].
  by apply IH, sched_step_sharing.
Qed.

Lemma run_app p s1 s2 c : run p (s1 ++ s2) c = run p s2 (run p s1 c).
Proof. revert c. induction s1 as [| b s1 IH]; intros c; simpl; [done | apply IH]. Qed.

(** When both threads have finished with status 200, the object holds the
    two exchanges, interleaved. *)
Lemma sharing_finished u m1 m2 l old c r1 r2 :
  sharing u m1 m2 l old c →
  finished (first c) = Some r1 → finished (second c) = Some r2 →
  status r1 = 200 → status r2 = 200 →
  ∃ a1 a2 ext,
    r1 = Response (VDict [("response", VStr a1)]) 200
    ∧ r2 = Response (VDict [("response", VStr a2)]) 200
    ∧ stored (shared c) u = Some (old ++ ext)
    ∧ interleave (exchange m1 a1) (exchange m2 a2) ext
    ∧ length ext = 4.
Proof.
  destruct c as [t1 t2 st']; simpl.
  intros (Hu & Hok1 & Hok2 & ext & Hext & Hint) Hf1 Hf2 Hs1 Hs2; simpl in *.
  destruct t1; simplify_eq/=. destruct t2; simplify_eq/=.
  destruct Hok1 as (-> & -> & [[a1 ->] | H500]); [| congruence].
  destruct Hok2 as (-> & -> & [[a2 ->] | H500]); [| congruence].
  exists a1, a2, ext. split_and!; try done.
  - apply stored_Some. by exists l.
  - by rewrite (interleave_length _ _ _ Hint).
Qed.

(** The thread model run on its own is the [try] block of the handler. *)
Lemma run_first_to_the_end repr p u m t2 st :
  ∃ resp st' ev,
    try_except (chat_try repr (Some p) u m) chat_except st = (inr resp, st', ev)
    ∧ run p first_to_the_end (Config (AtCreate u m) t2 st)
      = Config (Done u m resp) t2 st'.
Proof.
  rewrite chat_try_pipeline.
  unfold first_to_the_end, generate_reply; simpl.
  unfold sched_step, thread_step, try_except, thread_op, bind, call_pipeline,
    at_return, at_generate, alloc, append_turn; simpl.
  fold (target st u).
  destruct (generate p _) as [e | gens]; simpl; [by eexists _, _, _ |].
  destruct (last_response gens) as [e | a]; simpl; by eexists _, _, _.
Qed.

(** C8 (as amended): two requests of one user identifier at once, under
    any schedule of their operations, when the user has a stored
    conversation as they start, or under a schedule in which the first
    request has returned before the second starts: when both have finished
    with status 200, the stored conversation is the one before followed by
    the four turns of the two requests, each request's user turn before
    its assistant turn; under overlap the turns of the two requests may
    be interleaved. *)
Theorem C8_no_lost_update_when_stored_or_serial p sched u m1 m2 st r1 r2 :
  wf st →
  is_Some (stored st u) ∨ (∃ sched2, sched = first_to_the_end ++ sched2) →
  finished (first (run p sched (Config (AtCreate u m1) (AtCreate u m2) st)))
  = Some r1 →
  finished (second (run p sched (Config (AtCreate u m1) (AtCreate u m2) st)))
  = Some r2 →
  status r1 = 200 → status r2 = 200 →
  ∃ a1 a2 ext,
    r1 = Response (VDict [("response", VStr a1)]) 200
    ∧ r2 = Response (VDict [("response", VStr a2)]) 200
    ∧ stored (shared (run p sched (Config (AtCreate u m1) (AtCreate u m2) st)))
        u = Some (turns st u ++ ext)
    ∧ interleave (exchange m1 a1) (exchange m2 a2) ext
    ∧ length ext = 4.
Proof.
  intros Hwf [[old Hold] | [sched2 ->]].
  - unfold turns. rewrite Hold; simpl.
    apply stored_Some in Hold as (l & Hl & Hold).
    apply (sharing_finished u m1 m2 l old), run_sharing.
    unfold sharing; simpl. split_and!; try done.
    exists []. rewrite app_nil_r. split; [done | constructor].
  - rewrite run_app.
    destruct (run_first_to_the_end sample_repr p u m1 (AtCreate u m2) st)
      as (resp & st1 & ev & Htry & ->).
    rewrite chat_try_pipeline, heap_at_generate in Htry by done.
    destruct (generate_reply p _) as [e | a1]; simplify_eq.
    + intros Hf1 _ Hs1. exfalso. revert Hf1 Hs1.
      generalize (at_generate st u m1). generalize (AtCreate u m2).
      induction sched2 as [| b s IH]; intros t2 st1; simpl.
      * by intros [= <-].
      * destruct b; unfold sched_step; simpl; [apply IH |].
        destruct (thread_step p t2 st1) as [t2' st2]. apply IH.
    + apply (sharing_finished u m1 m2 (target st u) (turns st u)), run_sharing.
      unfold sharing; simpl. split_and!; try done.
      * by rewrite lookup_insert_eq.
      * by left; eexists.
      * exists (exchange m1 a1). split; [| apply interleave_nil_r].
        pose proof (stored_at_return_self st u m1 a1 Hwf) as Hs.
        apply stored_Some in Hs as (l & Hl & Hs). simpl in Hl.
        rewrite lookup_insert_eq in Hl. by simplify_eq.
Qed.

Section Growth.

Context (repr : value → string).

(** A call that fails in the gateway, for a user with a stored
    conversation: the user turn has been appended to the stored object. *)
Lemma failing_call_keeps_user_turn p req st m e old :
  wf st → method req = POST → message_of req = inr m → truthy m = true →
  stored st (user_id_of req) = Some old →
  generate_reply p (old ++ [Turn user m]) = inl e →
  (chat repr (Some p) req st).1.1
  = inr (Response (VDict [("error", VStr (str_exn e))]) 500)
  ∧ stored (chat repr (Some p) req st).1.2 (user_id_of req)
    = Some (old ++ [Turn user m]).
Proof.
  intros Hwf Hm Hmsg Ht Hold He.
  rewrite (chat_failure repr p req st m e); try done.
  - split; [done |]. simpl. by apply stored_at_generate_self.
  - by rewrite Hold.
Qed.

(** Whatever the call, a stored conversation is only ever extended at its
    end. *)
Lemma chat_stored_prefix p req st u c :
  stored st u = Some c →
  ∃ c', stored (chat repr p req st).1.2 u = Some c' ∧ c `prefix_of` c'.
Proof.
  intros Hc. rewrite chat_message_of.
  destruct (method req); [| by exists c].
  destruct (message_of req) as [e | m]; [by exists c |].
  destruct (truthy m); [| by exists c].
  destruct p as [p |]; [| by exists c]. rewrite chat_try_pipeline.
  apply stored_Some in Hc as (l & Hl & Hc).
  pose proof (lookup_lt_Some _ _ _ Hc) as Hlt.
  set (h := target st (user_id_of req)).
  assert (alter (λ c0, c0 ++ [Turn user m]) h (heap st ++ [[]]) !! l
          = Some (if decide (h = l) then c ++ [Turn user m] else c)) as H1.
  { rewrite list_lookup_alter.
    case_decide as Hd; [rewrite Hd |]; by rewrite lookup_app_l, Hc. }
  destruct (generate_reply p _) as [e | r]; simpl.
  - exists (if decide (h = l) then c ++ [Turn user m] else c).
    split; [| destruct (decide (h = l)); [apply prefix_app_r |]; reflexivity].
    apply stored_Some. exists l. by split.
  - exists (if decide (h = l)
            then (c ++ [Turn user m]) ++ [Turn assistant (VStr r)] else c).
    split.
    + apply stored_Some. exists l. unfold at_return; simpl. split.
      * rewrite lookup_insert.
        destruct (decide (user_id_of req = u)) as [Hu | Hu]; [| done].
        unfold target. by rewrite Hu, Hl.
      * fold h. rewrite list_lookup_alter.
        destruct (decide (h = l)) as [Hd | Hd]; [| done].
        rewrite Hd in *. by rewrite H1.
    + destruct (decide (h = l)); [| reflexivity]. rewrite <- app_assoc.
      apply prefix_app_r. reflexivity.
Qed.

End Growth.

(** * The properties on sample requests *)

Lemma wf_alice_state : wf alice_state.
Proof.
  intros u l. unfold alice_state; simpl.
  intros [_ <-]%lookup_singleton_Some. simpl. lia.
Qed.

(** The sample state is the one the first successful call of alice leaves. *)
Lemma alice_state_reached :
  (chat sample_repr (Some answering) (says "alice" "hello") initial).1.2
  = alice_state.
Proof. vm_compute. reflexivity. Qed.

(** C1: alice has a stored conversation of one exchange; on her next
    request the gateway raises; the handler answers 500, and the
    conversation stored for alice now ends with the user turn of the failed
    request, so it is not the conversation stored before the call. *)
Theorem C1_failed_call_leaves_user_turn :
  stored alice_state "alice" = Some (exchange (VStr "hello") "Hi there")
  ∧ (chat sample_repr (Some failing) (says "alice" "again") alice_state).1.1
    = inr (Response (VDict [("error", VStr "CUDA out of memory")]) 500)
  ∧ stored (chat sample_repr (Some failing) (says "alice" "again")
              alice_state).1.2 "alice"
    = Some (exchange (VStr "hello") "Hi there" ++ [Turn user (VStr "again")])
  ∧ stored (chat sample_repr (Some failing) (says "alice" "again")
              alice_state).1.2 "alice"
    ≠ stored alice_state "alice".
Proof. vm_compute. split_and!; try reflexivity. discriminate. Qed.

(** C6: a request whose [messages] list ends with a string, and a request
    whose body is a list: the exception of line 89 is raised before the
    [try] block and leaves the handler; no response is produced. *)
Theorem C6_exception_leaves_handler :
  chat sample_repr (Some answering) bare_string_request initial
  = (inl (AttributeError "'str' object has no attribute 'get'"), initial, [])
  ∧ chat sample_repr (Some answering) (Request POST (Some (VList [])) None)
      initial
    = (inl (AttributeError "'list' object has no attribute 'get'"), initial, []).
Proof. split; reflexivity. Qed.

(** C7: from the empty store, a successful call, a call on which the
    gateway raises, then a successful call, all of alice: the stored
    conversation has two user turns in a row. *)
Theorem C7_alternation_broken :
  stored (serve sample_repr three_calls initial).2 "alice"
  = Some [Turn user (VStr "hello"); Turn assistant (VStr "Hi there");
          Turn user (VStr "again");
          Turn user (VStr "third"); Turn assistant (VStr "Hi there")]
  ∧ alternating <$> stored (serve sample_repr three_calls initial).2 "alice"
    = Some false.
Proof. vm_compute. split; reflexivity. Qed.

(** C8, as stated, fails: two requests of alice at once, from the empty
    store, under a schedule where both read the dictionary before either
    writes it: both finish with status 200 and the stored conversation has
    the two turns of the second request only. *)
Lemma C8_lost_update :
  finished (first (run answering overlapping (two_requests initial)))
  = Some (Response (VDict [("response", VStr "Hi there")]) 200)
  ∧ finished (second (run answering overlapping (two_requests initial)))
    = Some (Response (VDict [("response", VStr "Hi there")]) 200)
  ∧ stored (shared (run answering overlapping (two_requests initial))) "alice"
    = Some (exchange (VStr "two") "Hi there")
  ∧ ¬ ∃ c, stored (shared (run answering overlapping (two_requests initial)))
             "alice" = Some c ∧ length c = 4.
Proof.
  vm_compute. split_and!; try reflexivity.
  intros (c & [= <-] & Hlen). discriminate.
Qed.

(** The echo of the request [{"messages":[{"role":"user","content":"hello"}]}]
    of alice when the pipeline did not load. *)
Lemma C2_degraded_mode_echo_witness :
  method (says "alice" "hello") = POST
  ∧ message_of (says "alice" "hello") = inr (VStr "hello")
  ∧ "hello" ≠ ""
  ∧ chat sample_repr (load_pipeline (inl (GatewayException "no model")))
      (says "alice" "hello") alice_state
    = (inr (Response
              (VDict [("response",
                 VStr "Echo: hello (Conversational AI not loaded)")]) 200),
       alice_state, []).
Proof.
  split; [reflexivity |]. split; [reflexivity |]. split; [discriminate |].
  apply (C2_degraded_mode_echo sample_repr (GatewayException "no model")
           (says "alice" "hello") alice_state "hello");
    [reflexivity | reflexivity | discriminate].
Defined.

(** [{"messages": []}] from alice, who has a stored conversation. *)
Lemma C3_empty_message_rejected_witness :
  method (no_messages "alice") = POST
  ∧ json (no_messages "alice") = Some (VDict [("messages", VList [])])
  ∧ empty_or_absent (VDict [("messages", VList [])])
  ∧ chat sample_repr (Some answering) (no_messages "alice") alice_state
    = (inr (Response (VDict [("error", VStr "Please provide a message")]) 400),
       alice_state, []).
Proof.
  assert (empty_or_absent (VDict [("messages", VList [])])) as H.
  { left. eexists. split; [reflexivity |]. right. reflexivity. }
  split; [reflexivity |]. split; [reflexivity |]. split; [exact H |].
  apply (C3_empty_message_rejected sample_repr (Some answering)
           (no_messages "alice") alice_state
           (VDict [("messages", VList [])]));
    [reflexivity | reflexivity | exact H].
Defined.

Lemma says_ends_with who text :
  ∃ data, json (says who text) = Some data
          ∧ ends_with_content data (Some (VStr text)).
Proof.
  eexists. split; [reflexivity |].
  eexists _, _, _. split_and!; reflexivity.
Qed.

(** The same last [content] after a made-up earlier element and with other
    fields: the same answer and the same state. *)
Lemma C5_only_last_content_used_witness :
  chat sample_repr (Some answering) (says "alice" "hello") alice_state
  = chat sample_repr (Some answering) (says_after_more "alice" "hello")
      alice_state.
Proof.
  eapply (C5_only_last_content_used sample_repr (Some answering)
            (says "alice" "hello") (says_after_more "alice" "hello")
            alice_state _ _ (Some (VStr "hello")));
    try reflexivity;
    (eexists _, _, _; split; [reflexivity |]; split; [reflexivity |];
     split; reflexivity).
Defined.

(** [{"messages": [{"role": "user"}]}] from alice. *)
Lemma C9_missing_content_as_empty_witness :
  chat sample_repr (Some answering) (no_content "alice") alice_state
  = (inr (Response (VDict [("error", VStr "Please provide a message")]) 400),
     alice_state, [])
  ∧ chat sample_repr (Some answering) (no_content "alice") alice_state
    = chat sample_repr (Some answering) (with_empty_content (no_content "alice"))
        alice_state.
Proof.
  eapply (C9_missing_content_as_empty sample_repr (Some answering)
            (no_content "alice") alice_state);
    try reflexivity.
  eexists _, _, _. split; [reflexivity |]. split; [reflexivity |].
  split; reflexivity.
Defined.

(** bob has no entry; the gateway raises on his first request. *)
Lemma C10_failure_creates_no_entry_witness :
  conversation_history alice_state !! "bob" = None
  ∧ ∃ st' ev,
      chat sample_repr (Some failing) (says "bob" "hello") alice_state
      = (inr (Response (VDict [("error", VStr "CUDA out of memory")]) 500),
         st', ev)
      ∧ conversation_history st' = conversation_history alice_state
      ∧ conversation_history st' !! "bob" = None
      ∧ ∀ u', stored st' u' = stored alice_state u'.
Proof.
  split; [vm_compute; reflexivity |].
  apply (C10_failure_creates_no_entry sample_repr failing (says "bob" "hello")
           alice_state (VStr "hello") (GatewayException "CUDA out of memory")
           wf_alice_state);
    reflexivity.
Defined.

(** Two successful calls of alice from the empty store. *)
Lemma C4_successful_calls_append_witness :
  ∃ ms rs,
    Forall2 asks [(Some answering, says "alice" "hello");
                  (Some answering, says "alice" "more")] ms
    ∧ Forall2 answered
        (serve sample_repr [(Some answering, says "alice" "hello");
                            (Some answering, says "alice" "more")] initial).1
        rs
    ∧ turns (serve sample_repr [(Some answering, says "alice" "hello");
                                (Some answering, says "alice" "more")]
               initial).2 "alice"
      = turns initial "alice" ++ exchanges ms rs
    ∧ length (exchanges ms rs) = 2 * 2
    ∧ ([(Some answering, says "alice" "hello");
        (Some answering, says "alice" "more")] ≠ [] →
       is_Some (stored (serve sample_repr
                          [(Some answering, says "alice" "hello");
                           (Some answering, says "alice" "more")]
                          initial).2 "alice")).
Proof.
  apply (C4_successful_calls_append sample_repr "alice"
           [(Some answering, says "alice" "hello");
            (Some answering, says "alice" "more")] initial wf_initial).
  - repeat constructor; try (by eexists); simpl.
    all: eexists; split; reflexivity.
  - vm_compute. repeat constructor; eexists; split; reflexivity.
Defined.

(** Two requests of alice at once when she has a stored conversation,
    under the schedule that lost an update from the empty store. *)
Lemma C8_no_lost_update_when_stored_or_serial_witness :
  (is_Some (stored alice_state "alice")
   ∨ ∃ sched2, overlapping = first_to_the_end ++ sched2)
  ∧ ∃ a1 a2 ext,
      Response (VDict [("response", VStr "Hi there")]) 200
      = Response (VDict [("response", VStr a1)]) 200
      ∧ Response (VDict [("response", VStr "Hi there")]) 200
        = Response (VDict [("response", VStr a2)]) 200
      ∧ stored (shared (run answering overlapping
                          (Config (AtCreate "alice" (VStr "one"))
                                  (AtCreate "alice" (VStr "two")) alice_state)))
          "alice"
        = Some (turns alice_state "alice" ++ ext)
      ∧ interleave (exchange (VStr "one") a1) (exchange (VStr "two") a2) ext
      ∧ length ext = 4.
Proof.
  assert (is_Some (stored alice_state "alice")) as H.
  { eexists. vm_compute. reflexivity. }
  split; [by left |].
  apply (C8_no_lost_update_when_stored_or_serial answering overlapping "alice"
           (VStr "one") (VStr "two") alice_state _ _ wf_alice_state
           (or_introl H));
    vm_compute; reflexivity.
Defined.

(** * Further properties of the handler *)

(** ** The shape of the body *)

Lemma truthy_false_iff v : truthy v = false ↔ v ∈ falsy_values.
Proof.
  unfold falsy_values. rewrite !elem_of_cons, elem_of_nil. split.
  - destruct v as [| b | n | x | s | l | d]; simpl; intros H.
    + by left.
    + right; left. by subst b.
    + right; right; left. apply negb_false_iff, Z.eqb_eq in H. by subst n.
    + do 3 right; left. apply bool_decide_eq_false in H.
      f_equal. by destruct (decide (x = 0%Qc)).
    + do 4 right; left. apply negb_false_iff, String.eqb_eq in H. by subst s.
    + do 5 right; left. by destruct l.
    + do 6 right; left. by destruct d.
  - intros [-> | [-> | [-> | [-> | [-> | [-> | [-> | []]]]]]]]; reflexivity.
Qed.

(** X1: the extraction of line 89 raises nothing exactly on the bodies that
    are an object whose [messages] is absent, falsy, or a list ending with
    an object; on every other JSON body it raises. *)
Theorem X1_extract_succeeds_iff_well_shaped data :
  (∃ m, extract_user_message data = inr m) ↔ well_shaped data.
Proof.
  split.
  - intros [m Hm]. destruct data as [| b | n | x | s | l | d]; try done.
    exists d. split; [done |]. unfold extract_user_message in Hm; simpl in Hm.
    destruct (dict_get d "messages") as [v |]; simpl in *; [| done].
    destruct (truthy v) eqn:Hv; [| by left]. right.
    destruct v as [| b | n | x | s | l | d']; simpl in *; try done.
    + destruct (String.eqb s ""); done.
    + destruct (last l) as [y |] eqn:Hl; [| done].
      destruct y as [| b | n | x | s | l' | o]; try done. by exists l, o.
  - intros (d & -> & H). unfold extract_user_message; simpl.
    destruct (dict_get d "messages") as [v |]; simpl; [| by eexists].
    destruct H as [Hv | (l & o & -> & Hl)].
    + rewrite Hv. by eexists.
    + destruct l as [| y l]; [done |]. simpl in *. rewrite Hl; simpl.
      by eexists.
Qed.

Section Further.

Context (repr : value → string).

(** ** Responses and escaping exceptions *)


(** X3: when the [messages] list ends with an object that has a [content]
    field, the handler answers 400 exactly when that content is one of
    [null], [false], [0], [0.0], the empty string, the empty list and the
    empty object; the test of line 92 is Python truth, not emptiness of a
    string. *)
Theorem X3_falsy_content_rejected p req st data v :
  method req = POST → json req = Some data →
  ends_with_content data (Some v) →
  (∃ resp, (chat repr p req st).1.1 = inr resp ∧ status resp = 400)
  ↔ v ∈ falsy_values.
Proof.
  intros Hm Hj He. rewrite <- truthy_false_iff.
  rewrite chat_message_of, Hm. unfold message_of.
  rewrite Hj, (extract_ends_with _ _ He); simpl.
  destruct (truthy v); split; try done.
  - intros (resp & Hr & Hs). destruct p as [p |].
    + rewrite chat_try_pipeline in Hr.
      destruct (generate_reply p _); simpl in Hr; by simplify_eq.
    + rewrite chat_try_echo in Hr. simpl in Hr. by simplify_eq.
  - intros _. by eexists.
Qed.

(** X4: a request without the [User-ID] header is served as the request
    with the header [User-ID: default_user]: same response, same state
    afterwards, same operations.  All such requests share one
    conversation. *)
Theorem X4_missing_header_is_default_user p req st :
  user_id_header req = None →
  chat repr p req st = chat repr p (with_default_user req) st.
Proof.
  intros Hu. rewrite !chat_message_of.
  unfold with_default_user, message_of, user_id_of; simpl. by rewrite Hu.
Qed.

(** ** The gateway path *)

(** X5: with a loaded pipeline, the gateway is called on the turns stored
    for the user followed by the new user turn, and when it returns, the
    reply sent back with status 200 is the last of its generated
    responses; that reply is the assistant turn stored. *)
Theorem X5_reply_is_last_generated p req st m gens r :
  wf st → method req = POST → message_of req = inr m → truthy m = true →
  generate p (turns st (user_id_of req) ++ [Turn user m]) = inr gens →
  last gens = Some r →
  chat repr (Some p) req st
  = (inr (Response (VDict [("response", VStr r)]) 200),
     at_return st (user_id_of req) m r, success_events st (user_id_of req))
  ∧ stored (at_return st (user_id_of req) m r) (user_id_of req)
    = Some (turns st (user_id_of req) ++ exchange m r).
Proof.
  intros Hwf Hm Hmsg Ht Hg Hl. split.
  - rewrite chat_message_of, Hm, Hmsg, Ht, chat_try_pipeline.
    rewrite heap_at_generate by done. unfold generate_reply, turns in *.
    rewrite Hg. unfold last_response. by rewrite Hl.
  - by apply stored_at_return_self.
Qed.

(** X6: when the gateway returns with an empty list of generated
    responses, line 114 raises IndexError: the handler answers 500 with
    [{"error": "list index out of range"}] and the dictionary is not
    written. *)
Theorem X6_no_generated_response p req st m :
  wf st → method req = POST → message_of req = inr m → truthy m = true →
  generate p (turns st (user_id_of req) ++ [Turn user m]) = inr [] →
  (chat repr (Some p) req st).1.1
  = inr (Response (VDict [("error", VStr "list index out of range")]) 500)
  ∧ conversation_history (chat repr (Some p) req st).1.2
    = conversation_history st.
Proof.
  intros Hwf Hm Hmsg Ht Hg.
  rewrite (chat_failure repr p req st m (IndexError "list index out of range"));
    try done.
  unfold generate_reply, turns in *. by rewrite Hg.
Qed.

(** X7: the dictionary is written only by a call that sends a reply: when
    the result is anything but a 200 response with a reply, the dictionary
    after the call is the dictionary before it and no write was
    performed. *)
Theorem X7_dictionary_written_only_on_reply p req st x st' ev :
  chat repr p req st = (x, st', ev) →
  (∀ a, x ≠ inr (Response (VDict [("response", VStr a)]) 200)) →
  conversation_history st' = conversation_history st
  ∧ ∀ u l, EvStoreSet u l ∉ ev.
Proof.
  rewrite chat_message_of. intros Hc Hx.
  assert (∀ u l, EvStoreSet u l ∉ @nil event) as Hnil.
  { intros u l. apply not_elem_of_nil. }
  destruct (method req); [| by simplify_eq].
  destruct (message_of req) as [e | m]; [by simplify_eq |].
  destruct (truthy m); [| by simplify_eq].
  destruct p as [p |].
  - rewrite chat_try_pipeline in Hc.
    destruct (generate_reply p _) as [e | r]; simplify_eq.
    + split; [done |]. intros u l. unfold failure_events.
      rewrite !elem_of_cons, elem_of_nil.
      intros [H | [H | [H | [H | [H | []]]]]]; discriminate.
    + by destruct (Hx r).
  - rewrite chat_try_echo in Hc. simplify_eq.
    destruct (Hx _ eq_refl).
Qed.

(** X8: an entry of the dictionary, once there, refers to the same
    Conversation object after every call, and a call adds no key but the
    user identifier of its request. *)
Theorem X8_entries_keep_their_object p req st u l :
  (conversation_history st !! u = Some l →
   conversation_history (chat repr p req st).1.2 !! u = Some l)
  ∧ (conversation_history st !! u = None →
     is_Some (conversation_history (chat repr p req st).1.2 !! u) →
     u = user_id_of req).
Proof.
  assert ((conversation_history st !! u = Some l →
           conversation_history st !! u = Some l)
          ∧ (conversation_history st !! u = None →
             is_Some (conversation_history st !! u) → u = user_id_of req))
    as Hsame.
  { split; [done |]. intros Hn [l' Hl']. congruence. }
  rewrite chat_message_of.
  destruct (method req); [| exact Hsame].
  destruct (message_of req) as [e | m]; [exact Hsame |].
  destruct (truthy m); [| exact Hsame].
  destruct p as [p |]; [| exact Hsame].
  rewrite chat_try_pipeline.
  destruct (generate_reply p _) as [e | r]; [exact Hsame |].
  unfold at_return; simpl. rewrite lookup_insert.
  destruct (decide (user_id_of req = u)) as [Heq | Hne].
  - split; [| done]. intros Hu. unfold target. by rewrite Heq, Hu.
  - exact Hsame.
Qed.

(** X9: every request with a message, under a loaded pipeline, creates one
    new Conversation object, also when the user has a stored conversation:
    the default of [conversation_history.get] is evaluated before the
    lookup.  For such a user the new object stays empty, and no entry of
    the dictionary refers to it. *)
Theorem X9_new_object_on_every_call p req st m l :
  wf st → method req = POST → message_of req = inr m → truthy m = true →
  conversation_history st !! user_id_of req = Some l →
  length (heap (chat repr (Some p) req st).1.2) = S (length (heap st))
  ∧ heap (chat repr (Some p) req st).1.2 !! length (heap st) = Some []
  ∧ ∀ u, conversation_history (chat repr (Some p) req st).1.2 !! u
         ≠ Some (length (heap st)).
Proof.
  intros Hwf Hm Hmsg Ht Hu. pose proof (Hwf _ _ Hu) as Hlt.
  rewrite chat_message_of, Hm, Hmsg, Ht, chat_try_pipeline.
  assert (target st (user_id_of req) = l) as Htl.
  { unfold target. by rewrite Hu. }
  assert (∀ u, conversation_history st !! u ≠ Some (length (heap st))) as Hno.
  { intros u Hl. specialize (Hwf _ _ Hl). lia. }
  destruct (generate_reply p _) as [e | r]; simpl; rewrite Htl.
  - rewrite length_alter, length_app; simpl. split_and!; [lia | | done].
    rewrite list_lookup_alter_ne by lia. by rewrite list_lookup_middle.
  - rewrite !length_alter, length_app; simpl. split_and!; [lia | |].
    + rewrite !list_lookup_alter_ne by lia. by rewrite list_lookup_middle.
    + intros u. rewrite lookup_insert. case_decide; [| done].
      intros [= ->]. lia.
Qed.

(** X10: without a pipeline no request of any kind changes the state or
    performs an operation on the store or the gateway. *)
Theorem X10_degraded_mode_is_stateless req st :
  (chat repr None req st).1.2 = st ∧ (chat repr None req st).2 = [].
Proof.
  rewrite chat_message_of. destruct (method req); [| done].
  destruct (message_of req) as [e | m]; [done |].
  by destruct (truthy m).
Qed.

End Further.

(** ** One user's calls and another user's conversation *)

Lemma wf_not_stored st u :
  wf st → stored st u = None → conversation_history st !! u = None.
Proof.
  intros Hwf Hs. destruct (conversation_history st !! u) as [l |] eqn:Hu; [| done].
  destruct (wf_stored st u l Hwf Hu) as (c & _ & Hc). congruence.
Qed.

Lemma stored_at_generate st u m :
  wf st →
  stored (at_generate st u m) u = (λ c, c ++ [Turn user m]) <$> stored st u.
Proof.
  intros Hwf. destruct (stored st u) as [c |] eqn:Hs; simpl.
  - by apply stored_at_generate_self.
  - rewrite stored_at_generate_fresh; [done .. |]. by apply wf_not_stored.
Qed.

(** The object of another user is not the one the request works on. *)
Lemma other_object st u u' l' :
  wf st → separate st → u' ≠ u → conversation_history st !! u' = Some l' →
  l' ≠ target st u ∧ l' < length (heap st).
Proof.
  intros Hwf Hsep Hne Hl'. pose proof (Hwf _ _ Hl') as Hlt.
  split; [| done]. unfold target.
  destruct (conversation_history st !! u) as [l |] eqn:Hu; simpl; [| lia].
  intros <-. by apply Hne, (Hsep u' u l').
Qed.

Lemma stored_at_generate_other st u m u' :
  wf st → separate st → u' ≠ u →
  stored (at_generate st u m) u' = stored st u'.
Proof.
  intros Hwf Hsep Hne. unfold stored, at_generate; simpl.
  destruct (conversation_history st !! u') as [l' |] eqn:Hl'; simpl; [| done].
  destruct (other_object st u u' l' Hwf Hsep Hne Hl') as [Hlt Hl].
  by apply lookup_other_append.
Qed.

Lemma stored_at_return_other st u m r u' :
  wf st → separate st → u' ≠ u →
  stored (at_return st u m r) u' = stored st u'.
Proof.
  intros Hwf Hsep Hne. unfold stored, at_return; simpl.
  rewrite lookup_insert_ne by done.
  destruct (conversation_history st !! u') as [l' |] eqn:Hl'; simpl; [| done].
  destruct (other_object st u u' l' Hwf Hsep Hne Hl') as [Hlt Hl].
  rewrite list_lookup_alter_ne by done. by apply lookup_other_append.
Qed.

Lemma separate_at_return st u m r :
  wf st → separate st → separate (at_return st u m r).
Proof.
  intros Hwf Hsep u1 u2 l. unfold at_return; simpl.
  rewrite !lookup_insert.
  destruct (decide (u = u1)) as [E1 | H1], (decide (u = u2)) as [E2 | H2].
  - congruence.
  - intros [= <-] Hl. exfalso.
    by destruct (other_object st u u2 _ Hwf Hsep (not_eq_sym H2) Hl).
  - intros Hl [= <-]. exfalso.
    by destruct (other_object st u u1 _ Hwf Hsep (not_eq_sym H1) Hl).
  - apply Hsep.
Qed.

Lemma separate_initial : separate initial.
Proof. intros u1 u2 l. unfold initial; simpl. by rewrite lookup_empty. Qed.

Lemma serve_cons repr p req calls st :
  serve repr ((p, req) :: calls) st
  = ((chat repr p req st).1.1 :: (serve repr calls (chat repr p req st).1.2).1,
     (serve repr calls (chat repr p req st).1.2).2).
Proof.
  simpl. destruct (chat repr p req st) as [[x st1] ev]; simpl.
  by destruct (serve repr calls st1).
Qed.

Section Isolation.

Context (repr : value → string).

Lemma chat_separate p req st :
  wf st → separate st → separate (chat repr p req st).1.2.
Proof.
  intros Hwf Hsep. rewrite chat_message_of.
  destruct (method req); [| done].
  destruct (message_of req) as [e | m]; [done |].
  destruct (truthy m); [| done].
  destruct p as [p |]; [| done]. rewrite chat_try_pipeline.
  destruct (generate_reply p _) as [e | r]; simpl; [done |].
  by apply separate_at_return.
Qed.

Lemma serve_wf_separate calls st :
  wf st → separate st →
  wf (serve repr calls st).2 ∧ separate (serve repr calls st).2.
Proof.
  revert st. induction calls as [| [p req] calls IH]; intros st Hwf Hsep.
  - done.
  - rewrite serve_cons; simpl. apply IH; [by apply chat_wf |].
    by apply chat_separate.
Qed.

(** What a call of [u] answers and stores for [u] depends on the state
    only through the turns stored for [u]. *)
Lemma chat_same_for_user p req st1 st2 :
  wf st1 → wf st2 →
  stored st1 (user_id_of req) = stored st2 (user_id_of req) →
  (chat repr p req st1).1.1 = (chat repr p req st2).1.1
  ∧ stored (chat repr p req st1).1.2 (user_id_of req)
    = stored (chat repr p req st2).1.2 (user_id_of req).
Proof.
  intros Hwf1 Hwf2 Hs. rewrite !chat_message_of.
  destruct (method req); [| done].
  destruct (message_of req) as [e | m]; [done |].
  destruct (truthy m); [| done].
  destruct p as [p |]; [| done]. rewrite !chat_try_pipeline.
  rewrite !heap_at_generate by done. rewrite Hs.
  destruct (generate_reply p _) as [e | r]; simpl.
  - by rewrite !stored_at_generate, Hs.
  - by rewrite !stored_at_return_self, Hs.
Qed.

(** X11: in every state reached from the empty store by serving requests,
    every entry of the dictionary refers to an existing Conversation
    object and no two users' entries refer to the same object. *)
Theorem X11_reachable_states_well_formed calls :
  wf (serve repr calls initial).2 ∧ separate (serve repr calls initial).2.
Proof. apply serve_wf_separate; [apply wf_initial | apply separate_initial]. Qed.

(** A call leaves what is stored for the users other than its own. *)
Lemma chat_stored_other p req st u' :
  wf st → separate st → u' ≠ user_id_of req →
  stored (chat repr p req st).1.2 u' = stored st u'.
Proof.
  intros Hwf Hsep Hne. rewrite chat_message_of.
  destruct (method req); [| done].
  destruct (message_of req) as [e | m]; [done |].
  destruct (truthy m); [| done].
  destruct p as [p |]; [| done]. rewrite chat_try_pipeline.
  destruct (generate_reply p _) as [e | r]; simpl.
  - by apply stored_at_generate_other.
  - by apply stored_at_return_other.
Qed.

(** X12: a call, whatever its outcome (reply, echo, 400, 500 or an
    exception that gets out), leaves the conversation stored for every
    user other than the one of its request as it was. *)
Theorem X12_other_users_untouched p req st u' :
  wf st → separate st → u' ≠ user_id_of req →
  stored (chat repr p req st).1.2 u' = stored st u'.
Proof. apply chat_stored_other. Qed.

(** X13: over a sequence of calls of several users, what is stored for a
    user [u] at the end, and the responses to [u]'s calls, are those of
    serving [u]'s calls alone, in their order, from any state that stores
    the same conversation for [u]: the calls of other users make no
    difference to [u]. *)
Theorem X13_users_do_not_interfere u calls st1 st2 :
  wf st1 → separate st1 → wf st2 → stored st1 u = stored st2 u →
  stored (serve repr calls st1).2 u
  = stored (serve repr (calls_of u calls) st2).2 u
  ∧ responses_of u calls (serve repr calls st1).1
    = (serve repr (calls_of u calls) st2).1.
Proof.
  revert st1 st2.
  induction calls as [| [p req] calls IH]; intros st1 st2 Hwf1 Hsep1 Hwf2 Hs.
  - done.
  - rewrite serve_cons. unfold calls_of, responses_of in *; simpl.
    rewrite !filter_cons; simpl.
    destruct (decide (user_id_of req = u)) as [Hu | Hu].
    + rewrite serve_cons; simpl. subst u.
      destruct (chat_same_for_user p req st1 st2 Hwf1 Hwf2 Hs) as [Hx Hs'].
      destruct (IH (chat repr p req st1).1.2 (chat repr p req st2).1.2)
        as [IH1 IH2]; try done; try by apply chat_wf.
      { by apply chat_separate. }
      split; [exact IH1 |]. rewrite Hx. f_equal. exact IH2.
    + apply IH; try done; try by apply chat_wf.
      * by apply chat_separate.
      * rewrite chat_stored_other; done.
Qed.

End Isolation.

(** ** The shape of the stored conversations *)

Lemma replies_follow_user b c m :
  replies_follow b (c ++ [Turn user m]) = replies_follow b c.
Proof.
  revert b. induction c as [| t c IH]; intros b; simpl; [done |].
  destruct (turn_role t); by rewrite IH.
Qed.

Lemma replies_follow_exchange b c m r :
  replies_follow b ((c ++ [Turn user m]) ++ [Turn assistant (VStr r)])
  = replies_follow b c.
Proof.
  revert b. induction c as [| t c IH]; intros b; simpl; [done |].
  destruct (turn_role t); by rewrite IH.
Qed.

Lemma paired_nil : paired [].
Proof. split; [done | constructor]. Qed.

Lemma paired_user c m : truthy m = true → paired c → paired (c ++ [Turn user m]).
Proof.
  intros Hm [Hr Hg]. split; [by rewrite replies_follow_user |].
  apply Forall_app. split; [done |]. by apply Forall_singleton.
Qed.

Lemma paired_assistant c m r :
  paired (c ++ [Turn user m]) →
  paired ((c ++ [Turn user m]) ++ [Turn assistant (VStr r)]).
Proof.
  intros [Hr Hg]. split.
  - by rewrite replies_follow_exchange, <- (replies_follow_user _ c m).
  - apply Forall_app. split; [done |]. by apply Forall_singleton.
Qed.

Section Shape.

Context (repr : value → string).

(** The handler keeps every Conversation object paired. *)
Lemma chat_paired p req st :
  Forall paired (heap st) → Forall paired (heap (chat repr p req st).1.2).
Proof.
  intros Hp. rewrite chat_message_of.
  destruct (method req); [| done].
  destruct (message_of req) as [e | m]; [done |].
  destruct (truthy m) eqn:Hm; [| done].
  destruct p as [p |]; [| done]. rewrite chat_try_pipeline.
  assert (Forall paired (heap (at_generate st (user_id_of req) m))) as Hg.
  { unfold at_generate; simpl. apply Forall_alter.
    - apply Forall_app. split; [done |]. apply Forall_singleton, paired_nil.
    - intros c _ Hc. by apply paired_user. }
  destruct (generate_reply p _) as [e | r]; simpl; [done |].
  unfold at_generate; simpl. rewrite list_alter_alter_eq.
  apply Forall_alter.
  - apply Forall_app. split; [done |]. apply Forall_singleton, paired_nil.
  - intros c _ Hc; simpl. by apply paired_assistant, paired_user.
Qed.

Lemma serve_paired calls st :
  Forall paired (heap st) → Forall paired (heap (serve repr calls st).2).
Proof.
  revert st. induction calls as [| [p req] calls IH]; intros st Hp; [done |].
  rewrite serve_cons; simpl. by apply IH, chat_paired.
Qed.

(** X14: in every state reached from the empty store by serving requests,
    each stored conversation has every assistant turn directly after a
    user turn (so it starts with a user turn and has no two assistant
    turns in a row), and every user turn carries a message that is not
    falsy. *)
Theorem X14_stored_conversations_paired calls u c :
  stored (serve repr calls initial).2 u = Some c →
  replies_follow false c = true ∧ messages_given c.
Proof.
  intros (l & _ & Hc)%stored_Some.
  eapply (Forall_lookup_1 paired); [| exact Hc].
  apply serve_paired. constructor.
Qed.

End Shape.

(** * The further properties on sample requests *)

Lemma separate_alice_state : separate alice_state.
Proof.
  intros u1 u2 l. unfold alice_state; simpl.
  intros [<- _]%lookup_singleton_Some [<- _]%lookup_singleton_Some. done.
Qed.


(** [{"messages": [{"content": 0}]}]: the number 0 is no message. *)
Lemma X3_falsy_content_rejected_witness :
  ends_with_content
    (VDict [("messages", VList [VDict [("content", VInt 0)]])])
    (Some (VInt 0))
  ∧ ((∃ resp, (chat sample_repr (Some answering) (zero_content "alice")
                 alice_state).1.1 = inr resp ∧ status resp = 400)
     ↔ VInt 0 ∈ falsy_values).
Proof.
  assert (ends_with_content
            (VDict [("messages", VList [VDict [("content", VInt 0)]])])
            (Some (VInt 0))) as H.
  { eexists _, _, _. split; [reflexivity |]. split; [reflexivity |].
    split; reflexivity. }
  split; [exact H |].
  apply (X3_falsy_content_rejected sample_repr (Some answering)
           (zero_content "alice") alice_state
           (VDict [("messages", VList [VDict [("content", VInt 0)]])])
           (VInt 0));
    [reflexivity | reflexivity | exact H].
Defined.

(** A message without the header goes to the conversation of
    [default_user]. *)
Lemma X4_missing_header_is_default_user_witness :
  user_id_header (anonymous "hello") = None
  ∧ chat sample_repr (Some answering) (anonymous "hello") alice_state
    = chat sample_repr (Some answering) (with_default_user (anonymous "hello"))
        alice_state.
Proof.
  split; [reflexivity |].
  apply (X4_missing_header_is_default_user sample_repr (Some answering)
           (anonymous "hello") alice_state).
  reflexivity.
Defined.

(** A gateway that generates three responses: the last one is sent. *)
Lemma X5_reply_is_last_generated_witness :
  generate chatty (turns alice_state "alice" ++ [Turn user (VStr "again")])
  = inr ["first"; "second"; "last"]
  ∧ chat sample_repr (Some chatty) (says "alice" "again") alice_state
    = (inr (Response (VDict [("response", VStr "last")]) 200),
       at_return alice_state "alice" (VStr "again") "last",
       success_events alice_state "alice")
  ∧ stored (at_return alice_state "alice" (VStr "again") "last") "alice"
    = Some (turns alice_state "alice" ++ exchange (VStr "again") "last").
Proof.
  split; [reflexivity |].
  apply (X5_reply_is_last_generated sample_repr chatty (says "alice" "again")
           alice_state (VStr "again") ["first"; "second"; "last"] "last"
           wf_alice_state);
    reflexivity.
Defined.

(** A gateway that generates no response. *)
Lemma X6_no_generated_response_witness :
  generate silent (turns alice_state "alice" ++ [Turn user (VStr "again")])
  = inr []
  ∧ (chat sample_repr (Some silent) (says "alice" "again") alice_state).1.1
    = inr (Response (VDict [("error", VStr "list index out of range")]) 500)
  ∧ conversation_history
      (chat sample_repr (Some silent) (says "alice" "again") alice_state).1.2
    = conversation_history alice_state.
Proof.
  split; [reflexivity |].
  apply (X6_no_generated_response sample_repr silent (says "alice" "again")
           alice_state (VStr "again") wf_alice_state);
    reflexivity.
Defined.

(** A call on which the gateway raises writes no entry. *)
Lemma X7_dictionary_written_only_on_reply_witness :
  conversation_history
    (chat sample_repr (Some failing) (says "bob" "hello") alice_state).1.2
  = conversation_history alice_state
  ∧ ∀ u l,
      EvStoreSet u l
      ∉ (chat sample_repr (Some failing) (says "bob" "hello") alice_state).2.
Proof.
  apply (X7_dictionary_written_only_on_reply sample_repr (Some failing)
           (says "bob" "hello") alice_state
           (chat sample_repr (Some failing) (says "bob" "hello")
              alice_state).1.1).
  - reflexivity.
  - intros a H. vm_compute in H. discriminate H.
Defined.

(** alice has a conversation; her next call still creates an object. *)
Lemma X9_new_object_on_every_call_witness :
  conversation_history alice_state !! user_id_of (says "alice" "again") = Some 0
  ∧ length (heap (chat sample_repr (Some answering) (says "alice" "again")
                    alice_state).1.2)
    = S (length (heap alice_state))
  ∧ heap (chat sample_repr (Some answering) (says "alice" "again")
            alice_state).1.2 !! length (heap alice_state) = Some []
  ∧ ∀ u, conversation_history
           (chat sample_repr (Some answering) (says "alice" "again")
              alice_state).1.2 !! u
         ≠ Some (length (heap alice_state)).
Proof.
  split; [reflexivity |].
  apply (X9_new_object_on_every_call sample_repr answering
           (says "alice" "again") alice_state (VStr "again") 0
           wf_alice_state);
    reflexivity.
Defined.

(** A call of bob leaves what is stored for alice. *)
Lemma X12_other_users_untouched_witness :
  "alice" ≠ user_id_of (says "bob" "hello")
  ∧ stored (chat sample_repr (Some answering) (says "bob" "hello")
              alice_state).1.2 "alice"
    = stored alice_state "alice".
Proof.
  assert ("alice" ≠ user_id_of (says "bob" "hello")) as H by discriminate.
  split; [exact H |].
  exact (X12_other_users_untouched sample_repr (Some answering)
           (says "bob" "hello") alice_state "alice"
           wf_alice_state separate_alice_state H).
Defined.

(** Calls of alice and bob, mixed: for alice as if bob had not called. *)
Lemma X13_users_do_not_interfere_witness :
  stored initial "alice" = stored initial "alice"
  ∧ stored (serve sample_repr mixed_calls initial).2 "alice"
    = stored (serve sample_repr (calls_of "alice" mixed_calls) initial).2
        "alice"
  ∧ responses_of "alice" mixed_calls (serve sample_repr mixed_calls initial).1
    = (serve sample_repr (calls_of "alice" mixed_calls) initial).1.
Proof.
  split; [reflexivity |].
  exact (X13_users_do_not_interfere sample_repr "alice" mixed_calls
           initial initial wf_initial separate_initial wf_initial eq_refl).
Defined.

(** The conversation with two user turns in a row is still paired. *)
Lemma X14_stored_conversations_paired_witness :
  stored (serve sample_repr three_calls initial).2 "alice"
  = Some [Turn user (VStr "hello"); Turn assistant (VStr "Hi there");
          Turn user (VStr "again");
          Turn user (VStr "third"); Turn assistant (VStr "Hi there")]
  ∧ replies_follow false
      [Turn user (VStr "hello"); Turn assistant (VStr "Hi there");
       Turn user (VStr "again");
       Turn user (VStr "third"); Turn assistant (VStr "Hi there")] = true
  ∧ messages_given
      [Turn user (VStr "hello"); Turn assistant (VStr "Hi there");
       Turn user (VStr "again");
       Turn user (VStr "third"); Turn assistant (VStr "Hi there")].
Proof.
  assert (stored (serve sample_repr three_calls initial).2 "alice"
          = Some [Turn user (VStr "hello"); Turn assistant (VStr "Hi there");
                  Turn user (VStr "again");
                  Turn user (VStr "third");
                  Turn assistant (VStr "Hi there")]) as H.
  { vm_compute. reflexivity. }
  split; [exact H |].
  exact (X14_stored_conversations_paired sample_repr three_calls "alice" _ H).
Defined.
